(** * safe-code-executor: the [/run] handler of [app.py]

    A shallow embedding of [run_code] (app.py, lines 47-97) and the
    properties of its validation, workspace handling and result
    classification.

    Python values are modelled as follows.
    - a [str] is the list of its Unicode code points, so that [len] is
      [length];
    - an [int] is a [Z];
    - the parsed JSON body is a [pyval];
    - the host (temporary directory, uuid, whether the file-system calls
      fail, the outcome of [subprocess.run]) is a [World];
    - the handler runs in a state-and-exception monad over the file system
      and a trace of the host calls it made. *)

From Stdlib Require Import ZArith NArith List String Ascii DecimalString Lia.
From stdpp Require Import base gmap list.

Import ListNotations.
Local Open Scope Z_scope.
Local Open Scope list_scope.

(** ** Python strings *)

Module Py.

(** A Python [str]: a sequence of code points. *)
Abbreviation str := (list N).

(** A literal of the source (the literals of app.py are all ASCII). *)
Definition lit (s : String.string) : str :=
  List.map N_of_ascii (list_ascii_of_string s).

(** [str(n)] for an [int]. *)
Definition str_of_int (n : Z) : str :=
  lit (NilEmpty.string_of_int (Z.to_int n)).

(** The code points on which [str.isspace] holds, which are the ones
    [str.strip()] removes (CPython, [_PyUnicode_IsWhitespace]). *)
Definition isspace (c : N) : bool :=
  ((9 <=? c) && (c <=? 13) || (28 <=? c) && (c <=? 32)
   || (c =? 133) || (c =? 160) || (c =? 5760)
   || (8192 <=? c) && (c <=? 8202)
   || (c =? 8232) || (c =? 8233) || (c =? 8239) || (c =? 8287)
   || (c =? 12288))%N.

(** [c in chars] for a one-character [c]. *)
Definition char_in (chars : str) (c : N) : bool :=
  existsb (N.eqb c) chars.

(** Dropping the longest prefix whose characters all satisfy [p]. *)
Fixpoint lstrip_by (p : N -> bool) (s : str) : str :=
  match s with
  | [] => []
  | c :: s' => if p c then lstrip_by p s' else s
  end.

(** Dropping the longest suffix whose characters all satisfy [p]. *)
Fixpoint rstrip_by (p : N -> bool) (s : str) : str :=
  match s with
  | [] => []
  | c :: s' =>
      match rstrip_by p s' with
      | [] => if p c then [] else [c]
      | t => c :: t
      end
  end.

(** [s.rstrip(chars)] *)
Definition rstrip (chars s : str) : str := rstrip_by (char_in chars) s.

(** [s.strip()] *)
Definition strip (s : str) : str := rstrip_by isspace (lstrip_by isspace s).

(** [s.startswith(t)] *)
Fixpoint startswith (s t : str) : bool :=
  match t, s with
  | [], _ => true
  | _ :: _, [] => false
  | b :: t', a :: s' => (a =? b)%N && startswith s' t'
  end.

(** [s.endswith(t)] *)
Definition endswith (s t : str) : bool := startswith (rev s) (rev t).

(** [t in s] for strings: [t] occurs as a substring of [s]. *)
Fixpoint contains (s t : str) : bool :=
  startswith s t ||
  match s with
  | [] => false
  | _ :: s' => contains s' t
  end.

(** The truth value of a [str]: non-empty. *)
Definition truthy (s : str) : bool :=
  match s with [] => false | _ => true end.

(** [a or b] on strings. *)
Definition or_else (a b : str) : str := if truthy a then a else b.

(** The literal ["\n"]. *)
Definition newline : str := [10%N].

(** [os.path.join(a, b)] (posixpath). *)
Definition path_join (a b : str) : str :=
  if startswith b (lit "/") then b
  else if negb (truthy a) || endswith a (lit "/") then a ++ b
  else a ++ lit "/" ++ b.

(** The values [json.loads] produces. A float carries its literal text: no
    property below looks inside one. *)
#[local] Unset Elimination Schemes.
Inductive pyval :=
| PyNone
| PyBool (b : bool)
| PyInt (n : Z)
| PyFloat (literal : str)
| PyStr (s : str)
| PyList (l : list pyval)
| PyDict (d : list (str * pyval)).
#[local] Set Elimination Schemes.

(** [isinstance(v, str)] *)
Definition isinstance_str (v : pyval) : bool :=
  match v with PyStr _ => true | _ => false end.

(** [type(v).__name__] *)
Definition type_name (v : pyval) : str :=
  match v with
  | PyNone => lit "NoneType"
  | PyBool _ => lit "bool"
  | PyInt _ => lit "int"
  | PyFloat _ => lit "float"
  | PyStr _ => lit "str"
  | PyList _ => lit "list"
  | PyDict _ => lit "dict"
  end.

(** [d.get(k)] on the items of a dict: the value of key [k], else [None]. *)
Fixpoint dict_get (d : list (str * pyval)) (k : str) : pyval :=
  match d with
  | [] => PyNone
  | (k', v) :: d' => if decide (k' = k) then v else dict_get d' k
  end.

(** The exceptions that can cross the handler. [FileNotFoundError] is the
    one the source catches; [OSError] stands for the other [OSError]
    subclasses ([PermissionError], ...); [BadRequest] is what
    [request.get_json] raises; [OtherException] is any other class, by
    name. The last argument is [str(e)]. *)
Inductive exn :=
| AttributeError (msg : str)
| FileNotFoundError (msg : str)
| OSError (msg : str)
| UnicodeEncodeError (msg : str)
| UnicodeDecodeError (msg : str)
| BadRequest (msg : str)
| OtherException (cls msg : str).

End Py.

Import Py.

(** ** The host and the effects of the handler *)

(** [subprocess.CompletedProcess], with [text=True]. *)
Record CompletedProcess := {
  returncode : Z;
  stdout : str;
  stderr : str;
}.

(** What [subprocess.run] does: it returns, or it raises. *)
Inductive spawn :=
| Completed (completed : CompletedProcess)
| SpawnRaises (e : exn).

(** The host of one request: the values the library calls return and
    whether the file-system calls fail. *)
Record World := {
  gettempdir : str;                (* tempfile.gettempdir() *)
  uuid4 : str;                     (* str(uuid.uuid4()) *)
  makedirs_error : option exn;     (* os.makedirs raises *)
  open_error : option exn;         (* open(.., "w") or f.write raises *)
  subprocess_outcome : spawn;      (* subprocess.run *)
}.

(** The host calls of the handler, in the order they are made. *)
Inductive event :=
| Makedirs (path : str)
| OpenWrite (path content : str)
| SubprocessRun (cmd : list str)
| Rmtree (path : str).

#[global] Instance event_eq_dec : EqDecision event.
Proof. solve_decision. Defined.

Inductive node := Dir | File (content : str).

(** The state the handler works on: the file system, as a map from paths
    to nodes, and the trace of host calls. *)
Record state := {
  fs : gmap str node;
  trace : list event;
}.

Inductive result (A : Type) :=
| Returned (a : A)
| Raised (e : exn).
Arguments Returned {A} a.
Arguments Raised {A} e.

(** A computation of the handler: state passing with exceptions. *)
Definition M (A : Type) : Type := state -> result A * state.

Definition ret {A} (a : A) : M A := fun s => (Returned a, s).

Definition raise {A} (e : exn) : M A := fun s => (Raised e, s).

Definition bind {A B} (m : M A) (k : A -> M B) : M B :=
  fun s =>
    match m s with
    | (Returned a, s') => k a s'
    | (Raised e, s') => (Raised e, s')
    end.

Notation "x <- m ;; k" := (bind m (fun x => k))
  (at level 100, m at next level, right associativity).
Notation "m ;; k" := (bind m (fun _ => k))
  (at level 100, right associativity).

(** [try: m  except FileNotFoundError as e: ...]: the caught exception is
    handed over as [inr (str e)]; any other exception propagates. *)
Definition try_FileNotFoundError {A} (m : M A) : M (A + str) :=
  fun s =>
    match m s with
    | (Returned a, s') => (Returned (inl a), s')
    | (Raised (FileNotFoundError msg), s') => (Returned (inr msg), s')
    | (Raised e, s') => (Raised e, s')
    end.

Definition log (e : event) : M unit :=
  fun s => (Returned tt, {| fs := fs s; trace := trace s ++ [e] |}).

Definition update_fs (f : gmap str node -> gmap str node) : M unit :=
  fun s => (Returned tt, {| fs := f (fs s); trace := trace s |}).

(** [p] is [d] or lies below it. *)
Definition under (d p : str) : bool :=
  bool_decide (p = d) || startswith p (d ++ lit "/").

(** [os.makedirs(path, exist_ok=True)] *)
Definition makedirs (w : World) (path : str) : M unit :=
  log (Makedirs path) ;;
  match makedirs_error w with
  | Some e => raise e
  | None => update_fs (fun m => match m !! path with
                                | Some _ => m
                                | None => <[path := Dir]> m
                                end)
  end.

(** [with open(path, "w", encoding="utf-8") as f: f.write(content)];
    when it raises, the model leaves the file system as it was. (When it
    is [f.write] that raises, [open] has already made an empty file; the
    model does not keep it, and nothing below reads the script path after
    a failed write.) *)
Definition open_write (w : World) (path content : str) : M unit :=
  log (OpenWrite path content) ;;
  match open_error w with
  | Some e => raise e
  | None => update_fs <[path := File content]>
  end.

(** [shutil.rmtree(path, ignore_errors=True)]: the tree at [path] is
    removed and nothing is raised. (With [ignore_errors] a removal that
    fails is silent; the model takes the removal to succeed.) *)
Definition rmtree (path : str) : M unit :=
  log (Rmtree path) ;;
  update_fs (filter (fun kv => under path kv.1 = false)).

(** [subprocess.run(cmd, stdout=PIPE, stderr=PIPE, text=True)] *)
Definition subprocess_run (w : World) (cmd : list str) : M CompletedProcess :=
  log (SubprocessRun cmd) ;;
  match subprocess_outcome w with
  | Completed completed => ret completed
  | SpawnRaises e => raise e
  end.

(** [body.get(key)]: only a dict has the method. *)
Definition get (body : pyval) (key : str) : M pyval :=
  match body with
  | PyDict d => ret (dict_get d key)
  | v => raise (AttributeError
                  (lit "'" ++ type_name v ++ lit "' object has no attribute 'get'"))
  end.

(** ** The handler *)

(** What a view function returns: [jsonify(dict), status]. The dict is
    kept as its items, in the order the source writes them. *)
Record response := {
  json : list (str * str);
  status : Z;
}.

(** Config *)
Definition MAX_CODE_CHARS : Z := 5000.
Definition TIMEOUT_SECONDS : Z := 10.
Definition MEMORY_LIMIT : str := lit "128m".
Definition PYTHON_RUNNER_IMAGE : str := lit "safe-python-runner:latest".

Definition docker_cmd (tempdir : str) : list str :=
  [ lit "docker"; lit "run"; lit "--rm";
    lit "--network"; lit "none";
    lit "--memory"; MEMORY_LIMIT;
    lit "--pids-limit"; lit "64";
    lit "--read-only";
    lit "--security-opt"; lit "no-new-privileges:true";
    lit "--cap-drop=ALL";
    lit "--volume"; tempdir ++ lit ":/app:ro";
    PYTHON_RUNNER_IMAGE;
    lit "python"; lit "/app/script.py" ].

Definition exec_cmd (tempdir : str) : list str :=
  [lit "timeout"; str_of_int TIMEOUT_SECONDS ++ lit "s"] ++ docker_cmd tempdir.

(** The tail of [run_code] (lines 87-97): from the completed process to
    the response. A bare [jsonify(..)] is status 200. *)
Definition classify (completed : CompletedProcess) : response :=
  if returncode completed =? 124 then
    {| json := [(lit "error",
                 lit "Execution timed out after " ++ str_of_int TIMEOUT_SECONDS
                   ++ lit " seconds")];
       status := 400 |}
  else if negb (returncode completed =? 0) then
    {| json := [(lit "output", strip (stdout completed));
                (lit "error",
                 or_else (strip (stderr completed))
                   (lit "container exited with code "
                      ++ str_of_int (returncode completed)))];
       status := 400 |}
  else
    {| json := [(lit "output", rstrip newline (stdout completed))];
       status := 200 |}.

Section RunCode.

(** [str.lower], the full Unicode lower-casing of the interpreter. *)
Variable lower : str -> str.

Definition tempdir_of (w : World) : str :=
  path_join (gettempdir w) (lit "safeexec-" ++ uuid4 w).

Definition script_path_of (w : World) : str :=
  path_join (tempdir_of w) (lit "script.py").

(** The response of the [except FileNotFoundError as e] branch. *)
Definition tool_not_found (msg : str) : response :=
  let missing :=
    if contains (lower msg) (lit "docker") then lit "docker" else lit "timeout" in
  {| json := [(lit "error", lit "Required tool not found: " ++ missing)];
     status := 500 |}.

(** [run_code], on the parsed request body. *)
Definition run_code (w : World) (body : pyval) : M response :=
  code <- get body (lit "code") ;;
  match code with
  | PyStr code =>
      if Z.of_nat (length code) >? MAX_CODE_CHARS then
        ret {| json := [(lit "error",
                         lit "code too long (max " ++ str_of_int MAX_CODE_CHARS
                           ++ lit ")")];
               status := 400 |}
      else
        let tempdir := tempdir_of w in
        makedirs w tempdir ;;
        let script_path := script_path_of w in
        open_write w script_path code ;;
        attempt <- try_FileNotFoundError (subprocess_run w (exec_cmd tempdir)) ;;
        match attempt with
        | inr e =>
            rmtree tempdir ;;
            ret (tool_not_found e)
        | inl completed =>
            rmtree tempdir ;;
            ret (classify completed)
        end
  | _ =>
      ret {| json := [(lit "error", lit "code must be a string")];
             status := 400 |}
  end.

End RunCode.

(** The handler starts on the host's files with no call made yet. *)
Definition start (files : gmap str node) : state :=
  {| fs := files; trace := [] |}.

(** The four calls of a run that reaches the sandbox, in order. *)
Definition full_trace (w : World) (code : str) : list event :=
  [ Makedirs (tempdir_of w);
    OpenWrite (script_path_of w) code;
    SubprocessRun (exec_cmd (tempdir_of w));
    Rmtree (tempdir_of w) ].

(** The file system after a run that reached the sandbox. *)
Definition cleaned (w : World) (code : str) (files : gmap str node) : gmap str node :=
  filter (fun kv => under (tempdir_of w) kv.1 = false)
    (<[script_path_of w := File code]>
       (match files !! tempdir_of w with
        | Some _ => files
        | None => <[tempdir_of w := Dir]> files
        end)).

(** ** The words of the specification *)

(** [t] is [s] trimmed of the surrounding characters that satisfy [p]:
    only such characters were cut off, and [t] neither starts nor ends
    with one. *)
Definition trimmed_of (p : N -> bool) (s t : str) : Prop :=
  (exists pre post, s = pre ++ t ++ post
                    /\ forallb p pre = true /\ forallb p post = true)
  /\ (forall c, head t = Some c -> p c = false)
  /\ (forall c, last t = Some c -> p c = false).

(** "Exactly one trailing newline stripped, nothing else altered." *)
Definition strip_one_trailing_newline (s : str) : str :=
  if endswith s newline then removelast s else s.

(** The facts of one sandbox invocation as the specification speaks of
    them: whether the host deadline expired, and the completed process,
    which is all the handler gets to see. *)
Record Invocation := {
  deadline_expired : bool;
  completed_process : CompletedProcess;
}.

(** The payload shape of a program error: an output and an error. *)
Definition is_program_error (r : response) : bool :=
  match json r with
  | [(k1, _); (k2, _)] =>
      bool_decide (k1 = lit "output") && bool_decide (k2 = lit "error")
  | _ => false
  end.

(** A guest that exits with 124 on its own, well within the deadline. *)
Definition guest_exit_124 : Invocation :=
  {| deadline_expired := false;
     completed_process :=
       {| returncode := 124; stdout := lit "bye" ++ newline; stderr := [] |} |}.

(** A guest that prints a line followed by an empty line. *)
Definition two_newlines : CompletedProcess :=
  {| returncode := 0; stdout := lit "a" ++ newline ++ newline; stderr := [] |}.

(** ** Concrete hosts and inputs, for running the handler *)

(** [str.lower] on ASCII text. *)
Definition lower_ascii (s : str) : str :=
  List.map (fun c => if ((65 <=? c) && (c <=? 90))%N then (c + 32)%N else c) s.

Definition body_of (code : str) : pyval := PyDict [(lit "code", PyStr code)].

Definition host (outcome : spawn) : World :=
  {| gettempdir := lit "/tmp";
     uuid4 := lit "0b0f7e9c-5a51-4c0e-9f0e-2f6a1d3c4b5a";
     makedirs_error := None;
     open_error := None;
     subprocess_outcome := outcome |}.

Definition hello : str := lit "print(1)".

Definition another_host (outcome : spawn) : World :=
  {| gettempdir := lit "/var/tmp/";
     uuid4 := lit "7c9e6679-7425-40de-944b-e07fc1f90ae7";
     makedirs_error := None;
     open_error := None;
     subprocess_outcome := outcome |}.

Definition printed_one : CompletedProcess :=
  {| returncode := 0; stdout := lit "1" ++ newline; stderr := [] |}.

Definition exited_3 : CompletedProcess :=
  {| returncode := 3; stdout := lit " partial " ++ newline; stderr := lit "  " |}.

Definition killed : CompletedProcess :=
  {| returncode := 124; stdout := lit "tick" ++ newline; stderr := lit "warn" |}.

Definition no_timeout_binary : str :=
  lit "[Errno 2] No such file or directory: 'timeout'".

(** Code of [n] characters. *)
Definition code_of_length (n : Z) : str := repeat 97%N (Z.to_nat n).

Definition host_ok : World := host (Completed printed_one).

Definition host_without_timeout : World :=
  host (SpawnRaises (FileNotFoundError no_timeout_binary)).

Definition host_exit_3 : World := host (Completed exited_3).

Definition another_host_exit_3 : World := another_host (Completed exited_3).

(** The state after a run that reached the sandbox, on a host without
    files. *)
Definition ran (w : World) (code : str) : state :=
  {| fs := cleaned w code ∅; trace := full_trace w code |}.

(** ** Further notions used below *)

(** [hasattr(v, "get")] on a parsed JSON value: only a dict has it. *)
Definition has_get (v : pyval) : bool :=
  match v with PyDict _ => true | _ => false end.

(** [k in d] on the items of a dict. *)
Definition has_key (d : list (str * pyval)) (k : str) : bool :=
  existsb (fun kv => bool_decide (kv.1 = k)) d.

(** [isinstance(e, FileNotFoundError)] *)
Definition is_FileNotFoundError (e : exn) : bool :=
  match e with FileNotFoundError _ => true | _ => false end.




(** What [timeout] gives back when it cannot find [docker]: exit status
    127 and its own complaint on stderr. *)
Definition docker_missing : CompletedProcess :=
  {| returncode := 127;
     stdout := [];
     stderr := lit "timeout: failed to run command 'docker': No such file or directory"
                 ++ newline |}.

Definition host_without_docker : World := host (Completed docker_missing).

(** The keys of the payload. *)
Definition keys (r : response) : list str := List.map fst (json r).

(** The file system once [os.makedirs] has made the workspace. *)
Definition made (w : World) (files : gmap str node) : gmap str node :=
  match files !! tempdir_of w with
  | Some _ => files
  | None => <[tempdir_of w := Dir]> files
  end.

(** The file system once the script is written into the workspace. *)
Definition written (w : World) (code : str) (files : gmap str node) : gmap str node :=
  <[script_path_of w := File code]> (made w files).

(** The six ways a run can go, with the state each leaves. *)
Inductive path (w : World) (files : gmap str node) :
    result response -> state -> Prop :=
| NoGet msg :
    path w files (Raised (AttributeError msg)) (start files)
| Rejected resp :
    status resp = 400 ->
    path w files (Returned resp) (start files)
| MakedirsRaised e :
    makedirs_error w = Some e ->
    path w files (Raised e)
      {| fs := files; trace := [Makedirs (tempdir_of w)] |}
| WriteRaised code e :
    open_error w = Some e ->
    path w files (Raised e)
      {| fs := made w files;
         trace := [Makedirs (tempdir_of w); OpenWrite (script_path_of w) code] |}
| SpawnRaised code e :
    subprocess_outcome w = SpawnRaises e ->
    is_FileNotFoundError e = false ->
    path w files (Raised e)
      {| fs := written w code files;
         trace := [Makedirs (tempdir_of w); OpenWrite (script_path_of w) code;
                   SubprocessRun (exec_cmd (tempdir_of w))] |}
| Ran code resp :
    path w files (Returned resp)
      {| fs := cleaned w code files; trace := full_trace w code |}.

(** Hosts on which a step fails. *)
Definition host_without_tmp : World :=
  {| gettempdir := lit "/tmp";
     uuid4 := lit "0b0f7e9c-5a51-4c0e-9f0e-2f6a1d3c4b5a";
     makedirs_error := Some (OSError (lit "[Errno 13] Permission denied"));
     open_error := None;
     subprocess_outcome := Completed printed_one |}.

Definition host_disk_full : World :=
  {| gettempdir := lit "/tmp";
     uuid4 := lit "0b0f7e9c-5a51-4c0e-9f0e-2f6a1d3c4b5a";
     makedirs_error := None;
     open_error := Some (OSError (lit "[Errno 28] No space left on device"));
     subprocess_outcome := Completed printed_one |}.

(** A host file that has nothing to do with the handler. *)
Definition host_files : gmap str node :=
  {[ lit "/etc/hostname" := File (lit "box") ]}.

Definition blank_failure : CompletedProcess :=
  {| returncode := 1; stdout := lit "x"; stderr := lit " " ++ newline |}.

Definition blank_lines : CompletedProcess :=
  {| returncode := 0; stdout := repeat 10%N 3; stderr := [] |}.

Definition host_timeout_not_executable : World :=
  host (SpawnRaises (OSError (lit "[Errno 13] Permission denied: 'timeout'"))).

(** * Properties *)

(** Unfolding the handler down to the host's answers. *)
Ltac run_handler :=
  cbv [run_code get bind ret raise makedirs open_write rmtree subprocess_run
       try_FileNotFoundError log update_fs].

(** ** Strings *)

Section Strip.

Variable p : N -> bool.

Lemma lstrip_by_split (s : str) :
  exists pre, s = pre ++ lstrip_by p s /\ forallb p pre = true.
Proof.
  induction s as [|c s IH]; simpl.
  - exists []. auto.
  - destruct (p c) eqn:Hc.
    + destruct IH as (pre & Heq & Hpre).
      exists (c :: pre). simpl. rewrite Hc, Hpre. split; [congruence | reflexivity].
    + exists []. auto.
Qed.

Lemma lstrip_by_head (s : str) (c : N) :
  head (lstrip_by p s) = Some c -> p c = false.
Proof.
  induction s as [|a s IH]; simpl; [discriminate|].
  destruct (p a) eqn:Ha; [exact IH|].
  simpl. intros [= <-]. exact Ha.
Qed.

Lemma rstrip_by_split (s : str) :
  exists post, s = rstrip_by p s ++ post /\ forallb p post = true.
Proof.
  induction s as [|c s IH]; simpl.
  - exists []. auto.
  - destruct IH as (post & Heq & Hpost).
    destruct (rstrip_by p s) as [|b t] eqn:Hr.
    + destruct (p c) eqn:Hc.
      * exists (c :: post). simpl in *. rewrite Hc, Hpost.
        split; [congruence | reflexivity].
      * exists post. simpl in *. split; congruence.
    + exists post. split; [|exact Hpost]. simpl in *. congruence.
Qed.

Lemma rstrip_by_last (s : str) (c : N) :
  last (rstrip_by p s) = Some c -> p c = false.
Proof.
  induction s as [|a s IH]; simpl; [discriminate|].
  destruct (rstrip_by p s) as [|b t] eqn:Hr.
  - destruct (p a) eqn:Ha; simpl; [discriminate|].
    intros [= <-]. exact Ha.
  - intros H. apply IH. exact H.
Qed.

Lemma rstrip_by_head (s : str) (c : N) :
  head (rstrip_by p s) = Some c -> head s = Some c.
Proof.
  destruct s as [|a s]; simpl; [discriminate|].
  destruct (rstrip_by p s); [destruct (p a)|]; simpl; congruence.
Qed.

(** Stripping is the identity on a string that does not end with a
    character to strip. *)
Lemma rstrip_by_fixed (s : str) :
  (forall c, last s = Some c -> p c = false) -> rstrip_by p s = s.
Proof.
  induction s as [|a s IH]; simpl; [reflexivity|].
  intros H. destruct s as [|b s'].
  - simpl. rewrite (H a eq_refl). reflexivity.
  - rewrite IH by (intros c Hc; apply H; exact Hc).
    reflexivity.
Qed.

(** Stripping removes a whole run of trailing characters to strip. *)
Lemma rstrip_by_app (s post : str) :
  forallb p post = true -> rstrip_by p (s ++ post) = rstrip_by p s.
Proof.
  intros Hpost. induction s as [|a s IH]; simpl.
  - induction post as [|b post IH]; simpl; [reflexivity|].
    simpl in Hpost. apply andb_prop in Hpost as [Hb Hpost].
    rewrite (IH Hpost). rewrite Hb. reflexivity.
  - rewrite IH. reflexivity.
Qed.

End Strip.

Lemma strip_trimmed (s : str) : trimmed_of isspace s (strip s).
Proof.
  unfold trimmed_of, strip. split; [|split].
  - destruct (lstrip_by_split isspace s) as (pre & Hs & Hpre).
    destruct (rstrip_by_split isspace (lstrip_by isspace s)) as (post & Hl & Hpost).
    exists pre, post. split; [|auto].
    rewrite <- Hl. exact Hs.
  - intros c Hc. apply rstrip_by_head in Hc.
    eapply lstrip_by_head; eauto.
  - apply rstrip_by_last.
Qed.

Lemma char_in_newline (c : N) : char_in newline c = true <-> c = 10%N.
Proof.
  unfold char_in, newline. simpl. rewrite orb_false_r. apply N.eqb_eq.
Qed.

Lemma forallb_newline (post : str) :
  forallb (char_in newline) post = true ->
  post = repeat 10%N (length post).
Proof.
  induction post as [|c post IH]; simpl; [reflexivity|].
  intros H. apply andb_prop in H as [Hc Hpost].
  apply char_in_newline in Hc. subst c. f_equal. auto.
Qed.

(** A string that does not end in a newline is what [rstrip("\n")] gives
    back, however many newlines are put after it. *)
Lemma rstrip_newline_of_run (t : str) (k : nat) :
  last t <> Some 10%N -> rstrip newline (t ++ repeat 10%N k) = t.
Proof.
  intros Ht. unfold rstrip. rewrite rstrip_by_app.
  - apply rstrip_by_fixed. intros c Hc.
    destruct (char_in newline c) eqn:E; [|reflexivity].
    apply char_in_newline in E. subst c. contradiction.
  - induction k as [|k IH]; [reflexivity|]. simpl. exact IH.
Qed.

(** [s.rstrip("\n")] is [s] without its whole run of trailing newlines. *)
Lemma rstrip_newline_spec (s : str) :
  (exists k, s = rstrip newline s ++ repeat 10%N k)
  /\ last (rstrip newline s) <> Some 10%N.
Proof.
  unfold rstrip. split.
  - destruct (rstrip_by_split (char_in newline) s) as (post & Hs & Hpost).
    exists (length post). rewrite <- (forallb_newline post Hpost). exact Hs.
  - intros H. apply rstrip_by_last in H. discriminate.
Qed.

(** ** The paths of the handler *)

Section Paths.

Variable lower : str -> str.

Lemma cleaned_absent (w : World) (code : str) (files : gmap str node) (p : str) :
  under (tempdir_of w) p = true -> cleaned w code files !! p = None.
Proof.
  intros Hp. unfold cleaned. apply map_lookup_filter_None. right.
  intros x _. simpl. rewrite Hp. discriminate.
Qed.

Lemma under_refl (d : str) : under d d = true.
Proof. unfold under. rewrite bool_decide_eq_true_2; reflexivity. Qed.

(** A body that is not a dict has no [get]. *)
Lemma run_code_not_dict (w : World) (body : pyval) (s : state) :
  (forall d, body <> PyDict d) ->
  exists msg, run_code lower w body s = (Raised (AttributeError msg), s).
Proof.
  intros Hb. destruct body; try (eexists; reflexivity).
  exfalso. eapply Hb. reflexivity.
Qed.

(** First guard: the code is not a string. *)
Lemma run_code_not_str (w : World) (d : list (str * pyval)) (s : state) :
  (forall code, dict_get d (lit "code") <> PyStr code) ->
  run_code lower w (PyDict d) s
  = (Returned {| json := [(lit "error", lit "code must be a string")];
                 status := 400 |}, s).
Proof.
  intros Hd. run_handler.
  destruct (dict_get d (lit "code")) eqn:Hc; try reflexivity.
  exfalso. eapply Hd. reflexivity.
Qed.

(** Second guard: the code is too long. *)
Lemma run_code_too_long (w : World) (d : list (str * pyval)) (code : str) (s : state) :
  dict_get d (lit "code") = PyStr code ->
  Z.of_nat (length code) > MAX_CODE_CHARS ->
  run_code lower w (PyDict d) s
  = (Returned {| json := [(lit "error", lit "code too long (max 5000)")];
                 status := 400 |}, s).
Proof.
  intros Hd Hlen. run_handler. rewrite Hd.
  destruct (Z.gtb_spec (Z.of_nat (length code)) MAX_CODE_CHARS); [reflexivity | lia].
Qed.

(** Past the guards, [os.makedirs] raises. *)
Lemma run_code_makedirs_raises (w : World) (d : list (str * pyval)) (code : str)
    (files : gmap str node) (e : exn) :
  dict_get d (lit "code") = PyStr code ->
  Z.of_nat (length code) <= MAX_CODE_CHARS ->
  makedirs_error w = Some e ->
  run_code lower w (PyDict d) (start files)
  = (Raised e, {| fs := files; trace := [Makedirs (tempdir_of w)] |}).
Proof.
  intros Hd Hlen Hmk. run_handler. rewrite Hd.
  destruct (Z.gtb_spec (Z.of_nat (length code)) MAX_CODE_CHARS); [lia|].
  rewrite Hmk. reflexivity.
Qed.

(** The directory is there, writing the script raises: nothing removes
    the directory. *)
Lemma run_code_open_raises (w : World) (d : list (str * pyval)) (code : str)
    (files : gmap str node) (e : exn) :
  dict_get d (lit "code") = PyStr code ->
  Z.of_nat (length code) <= MAX_CODE_CHARS ->
  makedirs_error w = None ->
  open_error w = Some e ->
  exists files',
    run_code lower w (PyDict d) (start files)
    = (Raised e, {| fs := files';
                    trace := [Makedirs (tempdir_of w);
                              OpenWrite (script_path_of w) code] |}).
Proof.
  intros Hd Hlen Hmk Hop. run_handler. rewrite Hd.
  destruct (Z.gtb_spec (Z.of_nat (length code)) MAX_CODE_CHARS); [lia|].
  rewrite Hmk, Hop. eexists. reflexivity.
Qed.

(** The sandbox was started and [subprocess.run] returned. *)
Lemma run_code_completed (w : World) (d : list (str * pyval)) (code : str)
    (files : gmap str node) (completed : CompletedProcess) :
  dict_get d (lit "code") = PyStr code ->
  Z.of_nat (length code) <= MAX_CODE_CHARS ->
  makedirs_error w = None ->
  open_error w = None ->
  subprocess_outcome w = Completed completed ->
  run_code lower w (PyDict d) (start files)
  = (Returned (classify completed),
     {| fs := cleaned w code files; trace := full_trace w code |}).
Proof.
  intros Hd Hlen Hmk Hop Hout. run_handler. rewrite Hd.
  destruct (Z.gtb_spec (Z.of_nat (length code)) MAX_CODE_CHARS); [lia|].
  rewrite Hmk, Hop, Hout. reflexivity.
Qed.

(** [subprocess.run] raised [FileNotFoundError]. *)
Lemma run_code_file_not_found (w : World) (d : list (str * pyval)) (code : str)
    (files : gmap str node) (msg : str) :
  dict_get d (lit "code") = PyStr code ->
  Z.of_nat (length code) <= MAX_CODE_CHARS ->
  makedirs_error w = None ->
  open_error w = None ->
  subprocess_outcome w = SpawnRaises (FileNotFoundError msg) ->
  run_code lower w (PyDict d) (start files)
  = (Returned (tool_not_found lower msg),
     {| fs := cleaned w code files; trace := full_trace w code |}).
Proof.
  intros Hd Hlen Hmk Hop Hout. run_handler. rewrite Hd.
  destruct (Z.gtb_spec (Z.of_nat (length code)) MAX_CODE_CHARS); [lia|].
  rewrite Hmk, Hop, Hout. reflexivity.
Qed.

(** [subprocess.run] raised something else: the exception leaves the
    handler and the directory stays. *)
Lemma run_code_spawn_raises (w : World) (d : list (str * pyval)) (code : str)
    (files : gmap str node) (e : exn) :
  dict_get d (lit "code") = PyStr code ->
  Z.of_nat (length code) <= MAX_CODE_CHARS ->
  makedirs_error w = None ->
  open_error w = None ->
  subprocess_outcome w = SpawnRaises e ->
  (forall msg, e <> FileNotFoundError msg) ->
  exists files',
    run_code lower w (PyDict d) (start files)
    = (Raised e, {| fs := files';
                    trace := [Makedirs (tempdir_of w);
                              OpenWrite (script_path_of w) code;
                              SubprocessRun (exec_cmd (tempdir_of w))] |}).
Proof.
  intros Hd Hlen Hmk Hop Hout Hne. run_handler. rewrite Hd.
  destruct (Z.gtb_spec (Z.of_nat (length code)) MAX_CODE_CHARS); [lia|].
  rewrite Hmk, Hop, Hout.
  destruct e; try (eexists; reflexivity).
  exfalso. eapply Hne. reflexivity.
Qed.

End Paths.

Section Handler.

Variable lower : str -> str.

(** Every run that returns a response was rejected by a guard, with no
    host call made, or went through the sandbox and removed its
    directory. *)
Lemma run_code_returned_inv (w : World) (body : pyval) (files : gmap str node)
    (resp : response) (s' : state) :
  run_code lower w body (start files) = (Returned resp, s') ->
  (s' = start files /\ status resp = 400)
  \/ (exists d code,
        body = PyDict d /\ dict_get d (lit "code") = PyStr code
        /\ Z.of_nat (length code) <= MAX_CODE_CHARS
        /\ s' = {| fs := cleaned w code files; trace := full_trace w code |}
        /\ ((exists completed,
               subprocess_outcome w = Completed completed
               /\ resp = classify completed)
            \/ (exists msg,
                  subprocess_outcome w = SpawnRaises (FileNotFoundError msg)
                  /\ resp = tool_not_found lower msg))).
Proof.
  intros Hrun.
  destruct body as [|b|n|f|t|l|d];
    try (match type of Hrun with
         | run_code _ _ ?v _ = _ =>
             destruct (run_code_not_dict lower w v (start files)
                         ltac:(intros; discriminate)) as [msg Hm]
         end;
         rewrite Hm in Hrun; discriminate).
  destruct (dict_get d (lit "code")) as [|b|n|f|code|l|d'] eqn:Hd;
    try (rewrite run_code_not_str in Hrun
           by (intros c; rewrite Hd; discriminate);
         injection Hrun as <- <-; left; split; reflexivity).
  destruct (Z_le_gt_dec (Z.of_nat (length code)) MAX_CODE_CHARS) as [Hlen|Hlen].
  2:{ rewrite (run_code_too_long lower w d code _ Hd Hlen) in Hrun.
      injection Hrun as <- <-. left. split; reflexivity. }
  destruct (makedirs_error w) as [e|] eqn:Hmk.
  { rewrite (run_code_makedirs_raises lower w d code files e Hd Hlen Hmk) in Hrun.
    discriminate. }
  destruct (open_error w) as [e|] eqn:Hop.
  { destruct (run_code_open_raises lower w d code files e Hd Hlen Hmk Hop)
      as [files' Hf].
    rewrite Hf in Hrun. discriminate. }
  right. exists d, code. split; [reflexivity|]. split; [exact Hd|].
  split; [exact Hlen|].
  destruct (subprocess_outcome w) as [completed|e] eqn:Hout.
  - rewrite (run_code_completed lower w d code files completed
               Hd Hlen Hmk Hop Hout) in Hrun.
    injection Hrun as <- <-. split; [reflexivity|]. left. eauto.
  - destruct e as [m|m|m|m|m|m|c m];
      try (destruct (run_code_spawn_raises lower w d code files _
                       Hd Hlen Hmk Hop Hout ltac:(intros; discriminate))
             as [files' Hf];
           rewrite Hf in Hrun; discriminate).
    rewrite (run_code_file_not_found lower w d code files m
               Hd Hlen Hmk Hop Hout) in Hrun.
    injection Hrun as <- <-. split; [reflexivity|]. right. eauto.
Qed.

Lemma full_trace_rmtree_once (w : World) (code : str) :
  count_occ event_eq_dec (full_trace w code) (Rmtree (tempdir_of w)) = 1%nat.
Proof.
  unfold full_trace.
  rewrite !count_occ_cons_neq by discriminate.
  rewrite count_occ_cons_eq by reflexivity. reflexivity.
Qed.

End Handler.

(** ** Validation *)

(** An exception is the one the [except] clause names, or it is not. *)
Lemma caught_or_not (e : exn) :
  (exists msg, e = FileNotFoundError msg)
  \/ (forall msg, e <> FileNotFoundError msg).
Proof. destruct e; eauto; right; intros; discriminate. Qed.

Section Validation.

Variable lower : str -> str.

(** C8: a body whose ["code"] is not a string (a number, a list, [None]
    when the key is absent, ...) is answered with status 400 and the
    message "code must be a string"; the state the handler leaves is the
    state it found, so no directory was made, no file written and no
    sandbox started. *)
Theorem non_string_code_rejected (w : World) (d : list (str * pyval)) (s : state) :
  isinstance_str (dict_get d (lit "code")) = false ->
  exists s',
    run_code lower w (PyDict d) s
    = (Returned {| json := [(lit "error", lit "code must be a string")];
                   status := 400 |}, s')
    /\ trace s' = trace s /\ fs s' = fs s.
Proof.
  intros Hd. exists s. rewrite (run_code_not_str lower w d s); [auto|].
  intros code Hc. rewrite Hc in Hd. discriminate.
Qed.

(** C4: code longer than [MAX_CODE_CHARS] (5000) is answered with status
    400 and the message "code too long (max 5000)"; the state the handler
    leaves is the state it found: the length is checked before the
    directory is made and nothing is written. *)
Theorem too_long_code_rejected (w : World) (d : list (str * pyval)) (code : str)
    (s : state) :
  dict_get d (lit "code") = PyStr code ->
  Z.of_nat (length code) > 5000 ->
  exists s',
    run_code lower w (PyDict d) s
    = (Returned {| json := [(lit "error", lit "code too long (max 5000)")];
                   status := 400 |}, s')
    /\ trace s' = trace s /\ fs s' = fs s.
Proof.
  intros Hd Hlen. exists s.
  rewrite (run_code_too_long lower w d code s Hd Hlen). auto.
Qed.

(** C10: code of exactly [MAX_CODE_CHARS] (5000) characters passes the
    length guard, which is a strict comparison: the first thing the
    handler does is make the workspace directory, it never answers "code
    too long", and when the directory and the script can be written the
    sandbox command is run on them. *)
Theorem boundary_length_accepted (w : World) (d : list (str * pyval)) (code : str)
    (files : gmap str node) :
  dict_get d (lit "code") = PyStr code ->
  Z.of_nat (length code) = 5000 ->
  exists r s',
    run_code lower w (PyDict d) (start files) = (r, s')
    /\ head (trace s') = Some (Makedirs (tempdir_of w))
    /\ (forall resp, r = Returned resp ->
          json resp <> [(lit "error", lit "code too long (max 5000)")])
    /\ (makedirs_error w = None -> open_error w = None ->
        exists rest,
          trace s' = [Makedirs (tempdir_of w);
                      OpenWrite (script_path_of w) code;
                      SubprocessRun (exec_cmd (tempdir_of w))] ++ rest).
Proof.
  intros Hd Hlen.
  assert (Hle : Z.of_nat (length code) <= MAX_CODE_CHARS)
    by (unfold MAX_CODE_CHARS; lia).
  destruct (makedirs_error w) as [e|] eqn:Hmk.
  { eexists _, _. split; [apply (run_code_makedirs_raises lower w d code files e); auto|].
    split; [reflexivity|]. split; [discriminate | discriminate]. }
  destruct (open_error w) as [e|] eqn:Hop.
  { destruct (run_code_open_raises lower w d code files e Hd Hle Hmk Hop) as [f' Hf].
    eexists _, _. split; [exact Hf|].
    split; [reflexivity|]. split; [discriminate | discriminate]. }
  destruct (subprocess_outcome w) as [completed|e] eqn:Hout.
  - eexists _, _.
    split; [apply (run_code_completed lower w d code files completed); auto|].
    split; [reflexivity|]. split.
    + intros resp [= <-]. unfold classify.
      destruct (returncode completed =? 124);
        [|destruct (negb (returncode completed =? 0))]; simpl; discriminate.
    + intros _ _. eexists. reflexivity.
  - destruct (caught_or_not e) as [[msg ->]|Hne].
    + eexists _, _.
      split; [apply (run_code_file_not_found lower w d code files msg); auto|].
      split; [reflexivity|]. split.
      * intros resp [= <-]. unfold tool_not_found. simpl.
        destruct (contains (lower msg) (lit "docker")); discriminate.
      * intros _ _. eexists. reflexivity.
    + destruct (run_code_spawn_raises lower w d code files e Hd Hle Hmk Hop Hout)
        as [f' Hf].
      { exact Hne. }
      eexists _, _. split; [exact Hf|].
      split; [reflexivity|]. split; [discriminate|].
      intros _ _. exists []. reflexivity.
Qed.

End Validation.

(** ** The workspace *)

Section Workspace.

Variable lower : str -> str.

(** C1: the claim fails on the code. The submission "print(1)" on a
    host where [subprocess.run] raises [PermissionError] (the wrapper is
    found but cannot be executed): the workspace directory was made, the
    exception leaves the handler, no [rmtree] of the directory is among
    the host calls, and the directory and the script are still there. *)
Lemma workspace_left_behind_when_spawn_raises :
  exists s',
    run_code lower_ascii host_timeout_not_executable (body_of hello) (start ∅)
    = (Raised (OSError (lit "[Errno 13] Permission denied: 'timeout'")), s')
    /\ In (Makedirs (tempdir_of host_timeout_not_executable)) (trace s')
    /\ count_occ event_eq_dec (trace s')
         (Rmtree (tempdir_of host_timeout_not_executable)) = 0%nat
    /\ fs s' !! tempdir_of host_timeout_not_executable = Some Dir
    /\ fs s' !! script_path_of host_timeout_not_executable = Some (File hello).
Proof.
  exists {| fs := written host_timeout_not_executable hello ∅;
            trace := [Makedirs (tempdir_of host_timeout_not_executable);
                      OpenWrite (script_path_of host_timeout_not_executable) hello;
                      SubprocessRun
                        (exec_cmd (tempdir_of host_timeout_not_executable))] |}.
  split; [vm_compute; reflexivity|].
  split; [simpl; auto|].
  split; [vm_compute; reflexivity|].
  split; vm_compute; reflexivity.
Qed.

(** C7: the claim fails on the code. The submission "print(1)" on a
    host without docker: the command starts with [timeout], which is
    found, cannot run docker and exits with status 127; no
    [FileNotFoundError] is raised, and the handler answers like a failure
    of the guest program: status 400 with an output and, as error,
    timeout's complaint, not status 500 with "Required tool not found:
    docker". *)
Lemma missing_docker_answered_as_program_error :
  subprocess_outcome host_without_docker = Completed docker_missing
  /\ fst (run_code lower_ascii host_without_docker (body_of hello) (start ∅))
     = Returned
         {| json := [(lit "output", []);
                     (lit "error",
                      lit "timeout: failed to run command 'docker': No such file or directory")];
            status := 400 |}
  /\ is_program_error (classify docker_missing) = true
  /\ status (classify docker_missing) <> 500
  /\ json (classify docker_missing)
     <> json (tool_not_found lower_ascii
                (lit "[Errno 2] No such file or directory: 'docker'")).
Proof.
  split; [reflexivity|]. split; [vm_compute; reflexivity|].
  split; [vm_compute; reflexivity|].
  split; vm_compute; discriminate.
Qed.

(** C9: two runs that both started the sandbox and got back completed
    processes with the same exit status, the same stdout and the same
    stderr return the same response (payload and status), whatever the
    submitted code, the run id, the temporary directory and the files of
    the host were. *)
Theorem classification_deterministic (w1 w2 : World) (body1 body2 : pyval)
    (files1 files2 : gmap str node) (c1 c2 : CompletedProcess)
    (r1 r2 : response) (s1 s2 : state) :
  run_code lower w1 body1 (start files1) = (Returned r1, s1) ->
  run_code lower w2 body2 (start files2) = (Returned r2, s2) ->
  In (SubprocessRun (exec_cmd (tempdir_of w1))) (trace s1) ->
  In (SubprocessRun (exec_cmd (tempdir_of w2))) (trace s2) ->
  subprocess_outcome w1 = Completed c1 ->
  subprocess_outcome w2 = Completed c2 ->
  returncode c1 = returncode c2 ->
  stdout c1 = stdout c2 ->
  stderr c1 = stderr c2 ->
  r1 = r2 /\ r1 = classify c1.
Proof.
  intros H1 H2 Hin1 Hin2 Ho1 Ho2 Hrc Hout Herr.
  assert (Hc : c1 = c2).
  { destruct c1, c2. simpl in *. congruence. }
  subst c2.
  destruct (run_code_returned_inv lower w1 body1 files1 r1 s1 H1)
    as [[-> _] | (d1 & code1 & _ & _ & _ & _ & [(c & Hc & ->)|(m & Hm & _)])];
    [destruct Hin1 | | congruence].
  destruct (run_code_returned_inv lower w2 body2 files2 r2 s2 H2)
    as [[-> _] | (d2 & code2 & _ & _ & _ & _ & [(c' & Hc' & ->)|(m & Hm & _)])];
    [destruct Hin2 | | congruence].
  split; congruence.
Qed.

End Workspace.

(** ** The classification of a completed process *)

(** The three branches, by exit status. *)
Lemma classify_124 (c : CompletedProcess) :
  returncode c = 124 ->
  classify c
  = {| json := [(lit "error", lit "Execution timed out after 10 seconds")];
       status := 400 |}.
Proof. intros H. unfold classify. rewrite H. reflexivity. Qed.

Lemma classify_zero (c : CompletedProcess) :
  returncode c = 0 ->
  classify c
  = {| json := [(lit "output", rstrip newline (stdout c))]; status := 200 |}.
Proof. intros H. unfold classify. rewrite H. reflexivity. Qed.

Lemma classify_nonzero (c : CompletedProcess) :
  returncode c <> 0 ->
  returncode c <> 124 ->
  classify c
  = {| json := [(lit "output", strip (stdout c));
                (lit "error",
                 or_else (strip (stderr c))
                   (lit "container exited with code "
                      ++ str_of_int (returncode c)))];
       status := 400 |}.
Proof.
  intros H0 H124. unfold classify.
  destruct (Z.eqb_spec (returncode c) 124); [contradiction|].
  destruct (Z.eqb_spec (returncode c) 0); [contradiction|].
  reflexivity.
Qed.

(** C2, as stated, fails: a guest that exits with 124 on its own, the
    deadline not expired, is answered with the timeout response, which is
    not a program error. *)
Lemma guest_exit_124_is_timeout :
  deadline_expired guest_exit_124 = false
  /\ returncode (completed_process guest_exit_124) = 124
  /\ is_program_error (classify (completed_process guest_exit_124)) = false
  /\ classify (completed_process guest_exit_124)
     = {| json := [(lit "error", lit "Execution timed out after 10 seconds")];
          status := 400 |}
  /\ fst (run_code lower_ascii
            (host (Completed (completed_process guest_exit_124)))
            (body_of hello) (start ∅))
     = Returned {| json := [(lit "error",
                             lit "Execution timed out after 10 seconds")];
                   status := 400 |}.
Proof. repeat split; vm_compute; reflexivity. Qed.

(** C2, amended: every invocation whose exit status is 124 is answered
    with the timeout response, whether the host deadline expired or not;
    the classification looks at the exit status alone. *)
Theorem exit_124_classified_by_status_alone (expired : bool) (c : CompletedProcess) :
  returncode c = 124 ->
  classify (completed_process
              {| deadline_expired := expired; completed_process := c |})
  = {| json := [(lit "error", lit "Execution timed out after 10 seconds")];
       status := 400 |}
  /\ is_program_error
       (classify (completed_process
                    {| deadline_expired := expired; completed_process := c |}))
     = false.
Proof.
  intros H. cbn [completed_process]. rewrite (classify_124 _ H).
  split; reflexivity.
Qed.

(** C3, as stated, fails: on a stdout that ends in two newlines the
    output is not the stdout less one newline, and it does not end in a
    newline. *)
Lemma two_newlines_both_stripped :
  returncode two_newlines = 0
  /\ stdout two_newlines = lit "a" ++ newline ++ newline
  /\ json (classify two_newlines) = [(lit "output", lit "a")]
  /\ strip_one_trailing_newline (stdout two_newlines) = lit "a" ++ newline
  /\ json (classify two_newlines)
     <> [(lit "output", strip_one_trailing_newline (stdout two_newlines))].
Proof. repeat split; vm_compute; congruence. Qed.

(** C3, amended: with exit status zero the response is status 200 with
    the single key "output", whose value is the stdout without its whole
    run of trailing newlines and otherwise unchanged: the stdout is the
    output followed by newlines only, and the output does not end in a
    newline. *)
Theorem success_output_strips_all_trailing_newlines (c : CompletedProcess) :
  returncode c = 0 ->
  exists out,
    classify c = {| json := [(lit "output", out)]; status := 200 |}
    /\ out = rstrip newline (stdout c)
    /\ (exists k, stdout c = out ++ repeat 10%N k)
    /\ last out <> Some 10%N.
Proof.
  intros H. exists (rstrip newline (stdout c)).
  split; [apply classify_zero; exact H|]. split; [reflexivity|].
  apply rstrip_newline_spec.
Qed.

(** C5: with an exit status other than 0 and 124 the response is status
    400 with the keys "output" and "error"; the output is the stdout
    trimmed of surrounding whitespace; the error is the stderr trimmed of
    surrounding whitespace when that is not empty, and else "container
    exited with code " followed by the exit status. *)
Theorem program_error_payload (c : CompletedProcess) :
  returncode c <> 0 ->
  returncode c <> 124 ->
  exists out err,
    classify c
    = {| json := [(lit "output", out); (lit "error", err)]; status := 400 |}
    /\ out = strip (stdout c)
    /\ trimmed_of isspace (stdout c) out
    /\ trimmed_of isspace (stderr c) (strip (stderr c))
    /\ (strip (stderr c) <> [] -> err = strip (stderr c))
    /\ (strip (stderr c) = [] ->
        err = lit "container exited with code " ++ str_of_int (returncode c)).
Proof.
  intros H0 H124. eexists _, _.
  split; [apply classify_nonzero; assumption|].
  split; [reflexivity|].
  split; [apply strip_trimmed|]. split; [apply strip_trimmed|].
  unfold or_else. destruct (strip (stderr c)) as [|a t]; simpl.
  - split; [congruence | reflexivity].
  - split; [reflexivity | discriminate].
Qed.

(** C6: with exit status 124 the response has the single key "error";
    its value is "Execution " followed by "timed out after N seconds"
    with N the configured [TIMEOUT_SECONDS]; there is no "output" key,
    and the response is the same whatever the stdout and the stderr of
    the guest were. *)
Theorem timeout_carries_only_duration (c : CompletedProcess) :
  returncode c = 124 ->
  json (classify c)
  = [(lit "error",
      lit "Execution " ++ lit "timed out after " ++ str_of_int TIMEOUT_SECONDS
        ++ lit " seconds")]
  /\ (forall key value, In (key, value) (json (classify c)) -> key = lit "error")
  /\ (forall out err,
        classify {| returncode := 124; stdout := out; stderr := err |}
        = classify c).
Proof.
  intros H. rewrite (classify_124 _ H). split; [reflexivity|]. split.
  - intros key value [[= <- _]|[]]. reflexivity.
  - intros out err. apply classify_124. reflexivity.
Qed.

(** ** The theorems at concrete inputs *)

Example hello_world_output :
  classify {| returncode := 0; stdout := lit "Hello World" ++ newline; stderr := [] |}
  = {| json := [(lit "output", lit "Hello World")]; status := 200 |}.
Proof. reflexivity. Qed.

Example silent_failure_names_the_code :
  classify {| returncode := -9; stdout := []; stderr := newline |}
  = {| json := [(lit "output", []);
                (lit "error", lit "container exited with code -9")];
       status := 400 |}.
Proof. reflexivity. Qed.

Example tempdir_of_host_ok :
  tempdir_of host_ok = lit "/tmp/safeexec-0b0f7e9c-5a51-4c0e-9f0e-2f6a1d3c4b5a".
Proof. reflexivity. Qed.

Example exec_cmd_starts_with_timeout :
  firstn 4 (exec_cmd (lit "/tmp/d"))
  = [lit "timeout"; lit "10s"; lit "docker"; lit "run"].
Proof. reflexivity. Qed.

Example not_a_dict_raises :
  fst (run_code lower_ascii host_ok (PyList []) (start ∅))
  = Raised (AttributeError (lit "'list' object has no attribute 'get'")).
Proof. reflexivity. Qed.

Lemma non_string_code_rejected_witness :
  exists s',
    run_code lower_ascii host_ok (PyDict [(lit "code", PyInt 42)]) (start ∅)
    = (Returned {| json := [(lit "error", lit "code must be a string")];
                   status := 400 |}, s')
    /\ trace s' = trace (start ∅) /\ fs s' = fs (start ∅).
Proof.
  apply (non_string_code_rejected lower_ascii host_ok
           [(lit "code", PyInt 42)] (start ∅)).
  reflexivity.
Defined.

Lemma too_long_code_rejected_witness :
  Z.of_nat (length (code_of_length 5001)) > 5000
  /\ exists s',
       run_code lower_ascii host_ok (body_of (code_of_length 5001)) (start ∅)
       = (Returned {| json := [(lit "error", lit "code too long (max 5000)")];
                      status := 400 |}, s')
       /\ trace s' = trace (start ∅) /\ fs s' = fs (start ∅).
Proof.
  split; [vm_compute; reflexivity|].
  apply (too_long_code_rejected lower_ascii host_ok
           [(lit "code", PyStr (code_of_length 5001))] (code_of_length 5001)
           (start ∅)).
  - reflexivity.
  - vm_compute. reflexivity.
Defined.

Lemma boundary_length_accepted_witness :
  Z.of_nat (length (code_of_length 5000)) = 5000
  /\ exists r s',
       run_code lower_ascii host_ok (body_of (code_of_length 5000)) (start ∅)
       = (r, s')
       /\ head (trace s') = Some (Makedirs (tempdir_of host_ok))
       /\ (forall resp, r = Returned resp ->
             json resp <> [(lit "error", lit "code too long (max 5000)")])
       /\ (makedirs_error host_ok = None ->
           open_error host_ok = None ->
           exists rest,
             trace s'
             = [Makedirs (tempdir_of host_ok);
                OpenWrite (script_path_of host_ok) (code_of_length 5000);
                SubprocessRun (exec_cmd (tempdir_of host_ok))]
               ++ rest).
Proof.
  split; [vm_compute; reflexivity|].
  apply (boundary_length_accepted lower_ascii host_ok
           [(lit "code", PyStr (code_of_length 5000))] (code_of_length 5000) ∅).
  - reflexivity.
  - vm_compute. reflexivity.
Defined.

Lemma classification_deterministic_witness :
  run_code lower_ascii host_exit_3 (body_of hello) (start ∅)
  = (Returned (classify exited_3), ran host_exit_3 hello)
  /\ run_code lower_ascii another_host_exit_3 (body_of (lit "x = 1")) (start ∅)
     = (Returned (classify exited_3), ran another_host_exit_3 (lit "x = 1"))
  /\ tempdir_of host_exit_3 <> tempdir_of another_host_exit_3
  /\ classify exited_3 = classify exited_3.
Proof.
  assert (H1 : run_code lower_ascii host_exit_3 (body_of hello) (start ∅)
               = (Returned (classify exited_3), ran host_exit_3 hello))
    by (vm_compute; reflexivity).
  assert (H2 : run_code lower_ascii another_host_exit_3
                 (body_of (lit "x = 1")) (start ∅)
               = (Returned (classify exited_3),
                  ran another_host_exit_3 (lit "x = 1")))
    by (vm_compute; reflexivity).
  split; [exact H1|]. split; [exact H2|].
  split; [vm_compute; discriminate|].
  apply (classification_deterministic lower_ascii host_exit_3
           another_host_exit_3 (body_of hello) (body_of (lit "x = 1")) ∅ ∅
           exited_3 exited_3 (classify exited_3) (classify exited_3)
           (ran host_exit_3 hello) (ran another_host_exit_3 (lit "x = 1"))
           H1 H2);
    solve [reflexivity | simpl; auto].
Defined.

Lemma exit_124_classified_by_status_alone_witness :
  returncode (completed_process guest_exit_124) = 124
  /\ classify (completed_process guest_exit_124)
     = {| json := [(lit "error", lit "Execution timed out after 10 seconds")];
          status := 400 |}.
Proof.
  split; [reflexivity|].
  apply (exit_124_classified_by_status_alone false
           (completed_process guest_exit_124)).
  reflexivity.
Defined.

Lemma success_output_strips_all_trailing_newlines_witness :
  returncode two_newlines = 0
  /\ exists out,
       classify two_newlines = {| json := [(lit "output", out)]; status := 200 |}
       /\ out = rstrip newline (stdout two_newlines)
       /\ (exists k, stdout two_newlines = out ++ repeat 10%N k)
       /\ last out <> Some 10%N.
Proof.
  split; [reflexivity|].
  apply (success_output_strips_all_trailing_newlines two_newlines).
  reflexivity.
Defined.

Lemma program_error_payload_witness :
  returncode exited_3 <> 0 /\ returncode exited_3 <> 124
  /\ exists out err,
       classify exited_3
       = {| json := [(lit "output", out); (lit "error", err)]; status := 400 |}
       /\ out = strip (stdout exited_3)
       /\ trimmed_of isspace (stdout exited_3) out
       /\ trimmed_of isspace (stderr exited_3) (strip (stderr exited_3))
       /\ (strip (stderr exited_3) <> [] -> err = strip (stderr exited_3))
       /\ (strip (stderr exited_3) = [] ->
           err = lit "container exited with code "
                   ++ str_of_int (returncode exited_3)).
Proof.
  split; [vm_compute; discriminate|]. split; [vm_compute; discriminate|].
  apply (program_error_payload exited_3); vm_compute; discriminate.
Defined.

Lemma timeout_carries_only_duration_witness :
  returncode killed = 124
  /\ json (classify killed)
     = [(lit "error", lit "Execution timed out after 10 seconds")].
Proof.
  split; [reflexivity|].
  apply (timeout_carries_only_duration killed). reflexivity.
Defined.

(** ** Every path of the handler *)

Section AllPaths.

Variable lower : str -> str.

Lemma run_code_open_raises_fs (w : World) (d : list (str * pyval)) (code : str)
    (files : gmap str node) (e : exn) :
  dict_get d (lit "code") = PyStr code ->
  Z.of_nat (length code) <= MAX_CODE_CHARS ->
  makedirs_error w = None ->
  open_error w = Some e ->
  run_code lower w (PyDict d) (start files)
  = (Raised e, {| fs := made w files;
                  trace := [Makedirs (tempdir_of w);
                            OpenWrite (script_path_of w) code] |}).
Proof.
  intros Hd Hlen Hmk Hop. run_handler. rewrite Hd.
  destruct (Z.gtb_spec (Z.of_nat (length code)) MAX_CODE_CHARS); [lia|].
  rewrite Hmk, Hop. reflexivity.
Qed.

Lemma run_code_spawn_raises_fs (w : World) (d : list (str * pyval)) (code : str)
    (files : gmap str node) (e : exn) :
  dict_get d (lit "code") = PyStr code ->
  Z.of_nat (length code) <= MAX_CODE_CHARS ->
  makedirs_error w = None ->
  open_error w = None ->
  subprocess_outcome w = SpawnRaises e ->
  is_FileNotFoundError e = false ->
  run_code lower w (PyDict d) (start files)
  = (Raised e, {| fs := written w code files;
                  trace := [Makedirs (tempdir_of w);
                            OpenWrite (script_path_of w) code;
                            SubprocessRun (exec_cmd (tempdir_of w))] |}).
Proof.
  intros Hd Hlen Hmk Hop Hout Hne. run_handler. rewrite Hd.
  destruct (Z.gtb_spec (Z.of_nat (length code)) MAX_CODE_CHARS); [lia|].
  rewrite Hmk, Hop, Hout.
  destruct e; try reflexivity. discriminate.
Qed.

Lemma run_code_path (w : World) (body : pyval) (files : gmap str node)
    (r : result response) (s' : state) :
  run_code lower w body (start files) = (r, s') -> path w files r s'.
Proof.
  intros Hrun.
  destruct body as [|b|n|f|t|l|d];
    try (injection Hrun as <- <-; apply NoGet).
  destruct (dict_get d (lit "code")) as [|b|n|f|code|l|d'] eqn:Hd;
    try (rewrite run_code_not_str in Hrun
           by (intros c; rewrite Hd; discriminate);
         injection Hrun as <- <-; apply Rejected; reflexivity).
  destruct (Z_le_gt_dec (Z.of_nat (length code)) MAX_CODE_CHARS) as [Hlen|Hlen].
  2:{ rewrite (run_code_too_long lower w d code _ Hd Hlen) in Hrun.
      injection Hrun as <- <-. apply Rejected. reflexivity. }
  destruct (makedirs_error w) as [e|] eqn:Hmk.
  { rewrite (run_code_makedirs_raises lower w d code files e Hd Hlen Hmk) in Hrun.
    injection Hrun as <- <-. apply MakedirsRaised. exact Hmk. }
  destruct (open_error w) as [e|] eqn:Hop.
  { rewrite (run_code_open_raises_fs w d code files e Hd Hlen Hmk Hop) in Hrun.
    injection Hrun as <- <-. apply WriteRaised. exact Hop. }
  destruct (subprocess_outcome w) as [completed|e] eqn:Hout.
  - rewrite (run_code_completed lower w d code files completed
               Hd Hlen Hmk Hop Hout) in Hrun.
    injection Hrun as <- <-. apply Ran.
  - destruct (is_FileNotFoundError e) eqn:He.
    + destruct e as [m|m|m|m|m|m|c m]; try discriminate.
      rewrite (run_code_file_not_found lower w d code files m
                 Hd Hlen Hmk Hop Hout) in Hrun.
      injection Hrun as <- <-. apply Ran.
    + rewrite (run_code_spawn_raises_fs w d code files e
                 Hd Hlen Hmk Hop Hout He) in Hrun.
      injection Hrun as <- <-. apply SpawnRaised; assumption.
Qed.

End AllPaths.

(** ** Failure paths *)

Lemma dict_get_absent (d : list (str * pyval)) (k : str) :
  has_key d k = false -> dict_get d k = PyNone.
Proof.
  induction d as [|[k' v] d IH]; simpl; [reflexivity|].
  intros H. apply orb_false_elim in H as [Hk Hd].
  apply bool_decide_eq_false in Hk.
  destruct (decide (k' = k)); [contradiction|]. auto.
Qed.

Lemma made_has_workspace (w : World) (files : gmap str node) :
  made w files !! tempdir_of w <> None.
Proof.
  unfold made. destruct (files !! tempdir_of w) eqn:E.
  - rewrite E. discriminate.
  - rewrite lookup_insert_eq. discriminate.
Qed.

Lemma written_has_script (w : World) (code : str) (files : gmap str node) :
  written w code files !! script_path_of w = Some (File code).
Proof. unfold written. apply lookup_insert_eq. Qed.

Lemma written_has_workspace (w : World) (code : str) (files : gmap str node) :
  written w code files !! tempdir_of w <> None.
Proof.
  unfold written.
  destruct (decide (script_path_of w = tempdir_of w)) as [E|E].
  - rewrite E, lookup_insert_eq. discriminate.
  - rewrite lookup_insert_ne by exact E. apply made_has_workspace.
Qed.


Section Failures.

Variable lower : str -> str.

(** X1: a body that is not a JSON object (a list, a string, a number,
    [null], ...) has no [get]: the handler raises [AttributeError] naming
    the type, and has made no host call. *)
Theorem body_without_get_raises (w : World) (body : pyval) (s : state) :
  has_get body = false ->
  run_code lower w body s
  = (Raised (AttributeError
               (lit "'" ++ type_name body ++ lit "' object has no attribute 'get'")),
     s).
Proof.
  intros H. destruct body; try reflexivity. discriminate.
Qed.

(** X2: a JSON object without the key ["code"] is answered like one whose
    code is not a string: status 400, "code must be a string", no host
    call. *)
Theorem missing_code_key_rejected (w : World) (d : list (str * pyval)) (s : state) :
  has_key d (lit "code") = false ->
  run_code lower w (PyDict d) s
  = (Returned {| json := [(lit "error", lit "code must be a string")];
                 status := 400 |}, s).
Proof.
  intros H. apply run_code_not_str.
  intros code. rewrite (dict_get_absent d _ H). discriminate.
Qed.

(** X3: when [os.makedirs] raises, the exception leaves the handler; the
    script is not written, the sandbox is not started and nothing is
    removed. *)
Theorem makedirs_failure_propagates (w : World) (d : list (str * pyval))
    (code : str) (files : gmap str node) (e : exn) :
  dict_get d (lit "code") = PyStr code ->
  Z.of_nat (length code) <= 5000 ->
  makedirs_error w = Some e ->
  exists s',
    run_code lower w (PyDict d) (start files) = (Raised e, s')
    /\ trace s' = [Makedirs (tempdir_of w)].
Proof.
  intros Hd Hlen Hmk. eexists. split.
  - apply (run_code_makedirs_raises lower w d code files e Hd Hlen Hmk).
  - reflexivity.
Qed.

(** X4: when writing the script raises, the exception leaves the handler
    and the directory made just before is still there: no [rmtree] is
    called and the sandbox is not started. *)
Theorem write_failure_leaves_directory (w : World) (d : list (str * pyval))
    (code : str) (files : gmap str node) (e : exn) :
  dict_get d (lit "code") = PyStr code ->
  Z.of_nat (length code) <= 5000 ->
  makedirs_error w = None ->
  open_error w = Some e ->
  exists s',
    run_code lower w (PyDict d) (start files) = (Raised e, s')
    /\ trace s' = [Makedirs (tempdir_of w); OpenWrite (script_path_of w) code]
    /\ fs s' !! tempdir_of w <> None.
Proof.
  intros Hd Hlen Hmk Hop. eexists. split.
  - apply (run_code_open_raises_fs lower w d code files e Hd Hlen Hmk Hop).
  - split; [reflexivity|]. apply made_has_workspace.
Qed.

(** X5: when [subprocess.run] raises anything but [FileNotFoundError]
    (a [PermissionError], say), the exception leaves the handler and the
    workspace stays behind: no [rmtree] is called, the directory is there
    and the script in it holds the submitted code. *)
Theorem spawn_failure_leaves_workspace (w : World) (d : list (str * pyval))
    (code : str) (files : gmap str node) (e : exn) :
  dict_get d (lit "code") = PyStr code ->
  Z.of_nat (length code) <= 5000 ->
  makedirs_error w = None ->
  open_error w = None ->
  subprocess_outcome w = SpawnRaises e ->
  is_FileNotFoundError e = false ->
  exists s',
    run_code lower w (PyDict d) (start files) = (Raised e, s')
    /\ trace s' = [Makedirs (tempdir_of w); OpenWrite (script_path_of w) code;
                   SubprocessRun (exec_cmd (tempdir_of w))]
    /\ fs s' !! tempdir_of w <> None
    /\ fs s' !! script_path_of w = Some (File code).
Proof.
  intros Hd Hlen Hmk Hop Hout He. eexists. split.
  - apply (run_code_spawn_raises_fs lower w d code files e Hd Hlen Hmk Hop Hout He).
  - split; [reflexivity|]. split.
    + apply written_has_workspace.
    + apply written_has_script.
Qed.


(** X7: whatever the run does, returning or raising, its file-system
    calls leave as it was every path that is not in the workspace
    directory, is not the script and is not a parent of the workspace
    (a missing parent is for [os.makedirs] to make). *)
Theorem files_outside_workspace_untouched (w : World) (body : pyval)
    (files : gmap str node) (r : result response) (s' : state) (p : str) :
  run_code lower w body (start files) = (r, s') ->
  under (tempdir_of w) p = false ->
  under p (tempdir_of w) = false ->
  p <> script_path_of w ->
  fs s' !! p = files !! p.
Proof.
  intros Hrun Hu _ Hs.
  assert (Hd : tempdir_of w <> p).
  { intros <-. rewrite under_refl in Hu. discriminate. }
  assert (Hmade : made w files !! p = files !! p).
  { unfold made. destruct (files !! tempdir_of w); [reflexivity|].
    apply lookup_insert_ne. exact Hd. }
  assert (Hwritten : forall code, written w code files !! p = files !! p).
  { intros code. unfold written. rewrite lookup_insert_ne by congruence.
    exact Hmade. }
  pose proof (run_code_path lower w body files _ _ Hrun) as Hp.
  inversion Hp; subst; simpl; auto.
  change (cleaned w code files)
    with (filter (fun kv : str * node => under (tempdir_of w) kv.1 = false)
            (written w code files)).
  rewrite map_lookup_filter, Hwritten.
  destruct (files !! p) as [x|]; simpl; [|reflexivity].
  rewrite option_guard_True by exact Hu. reflexivity.
Qed.

(** X8: the host calls of any run, returning or raising, are an initial
    part of: make the directory, write the script, run the sandbox,
    remove the directory. In particular nothing is removed before the
    sandbox was run, and no call is made twice. *)
Theorem host_calls_in_order (w : World) (body : pyval) (files : gmap str node)
    (r : result response) (s' : state) :
  run_code lower w body (start files) = (r, s') ->
  exists code rest, full_trace w code = trace s' ++ rest.
Proof.
  intros Hrun. pose proof (run_code_path lower w body files _ _ Hrun) as Hp.
  inversion Hp; subst; simpl.
  - exists [], (full_trace w []). reflexivity.
  - exists [], (full_trace w []). reflexivity.
  - exists [], (tl (full_trace w [])). reflexivity.
  - exists code. eexists. reflexivity.
  - exists code. eexists. reflexivity.
  - exists code, []. reflexivity.
Qed.

(** X9: the status of a returned response is 200, 400 or 500, and it
    tells what happened. 200 is returned only when the sandbox was run
    and exited with status 0; 500 only when [subprocess.run] raised
    [FileNotFoundError]; in both cases the directory was made and
    removed. *)
Theorem status_tells_outcome (w : World) (body : pyval) (files : gmap str node)
    (resp : response) (s' : state) :
  run_code lower w body (start files) = (Returned resp, s') ->
  (status resp = 200 \/ status resp = 400 \/ status resp = 500)
  /\ (status resp = 200 ->
      exists code completed,
        subprocess_outcome w = Completed completed
        /\ returncode completed = 0
        /\ json resp = [(lit "output", rstrip newline (stdout completed))]
        /\ trace s' = full_trace w code)
  /\ (status resp = 500 ->
      exists code msg,
        subprocess_outcome w = SpawnRaises (FileNotFoundError msg)
        /\ trace s' = full_trace w code).
Proof.
  intros Hrun.
  destruct (run_code_returned_inv lower w body files resp s' Hrun)
    as [[-> H400] | (d & code & -> & Hd & Hlen & -> & Hout)].
  - split; [auto|]. split; intros H; rewrite H in H400; discriminate.
  - destruct Hout as [(c & Hc & ->)|(m & Hm & ->)].
    + unfold classify.
      destruct (Z.eqb_spec (returncode c) 124) as [E|E]; simpl.
      { split; [auto|]. split; discriminate. }
      destruct (Z.eqb_spec (returncode c) 0) as [E0|E0]; simpl.
      * split; [auto|]. split; [|discriminate].
        intros _. exists code, c. auto.
      * split; [auto|]. split; discriminate.
    + simpl. split; [auto|]. split; [discriminate|].
      intros _. exists code, m. auto.
Qed.

End Failures.

(** ** Payloads *)

Lemma lstrip_by_all (p : N -> bool) (s : str) :
  forallb p s = true -> lstrip_by p s = [].
Proof.
  induction s as [|c s IH]; simpl; [reflexivity|].
  intros H. apply andb_prop in H as [Hc Hs]. rewrite Hc. auto.
Qed.

Lemma strip_blank (s : str) : forallb isspace s = true -> strip s = [].
Proof. intros H. unfold strip. rewrite (lstrip_by_all _ _ H). reflexivity. Qed.

(** X10: the keys of the payload follow the exit status: there is an
    "error" exactly when the exit status is not 0, an "output" exactly
    when it is not 124, and the status is 200 exactly when the exit
    status is 0. So no response carries an error together with status
    200. *)
Theorem payload_keys_by_exit_status (c : CompletedProcess) :
  (In (lit "error") (keys (classify c)) <-> returncode c <> 0)
  /\ (In (lit "output") (keys (classify c)) <-> returncode c <> 124)
  /\ (status (classify c) = 200 <-> returncode c = 0).
Proof.
  unfold classify, keys.
  destruct (Z.eqb_spec (returncode c) 124) as [E|E]; cbn [json status map fst].
  - split; [|split].
    + split; [lia | intros _; left; reflexivity].
    + split; [intros [H|[]]; vm_compute in H; discriminate | contradiction].
    + split; [discriminate | lia].
  - destruct (Z.eqb_spec (returncode c) 0) as [E0|E0]; cbn [negb json status map fst].
    + split; [|split].
      * split; [intros [H|[]]; vm_compute in H; discriminate | contradiction].
      * split; [auto | intros _; left; reflexivity].
      * split; auto.
    + split; [|split].
      * split; [auto | intros _; right; left; reflexivity].
      * split; [auto | intros _; left; reflexivity].
      * split; [discriminate | contradiction].
Qed.

(** X11: an "error" in a classified response is never the empty string:
    it is the timeout message, the trimmed stderr when that is not empty,
    or the message naming the exit status. *)
Theorem error_message_never_empty (c : CompletedProcess) (v : str) :
  In (lit "error", v) (json (classify c)) -> v <> [].
Proof.
  unfold classify.
  destruct (returncode c =? 124); [|destruct (negb (returncode c =? 0))];
    cbn [json].
  - intros [H|[]]. injection H as <-. vm_compute. discriminate.
  - intros [H|[H|[]]].
    + apply (f_equal fst) in H. vm_compute in H. discriminate.
    + injection H as <-. unfold or_else.
      destruct (strip (stderr c)); simpl; discriminate.
  - intros [H|[]]. apply (f_equal fst) in H. vm_compute in H. discriminate.
Qed.

(** X12: when the process failed and its stderr is empty or only
    whitespace, the error is the message naming the exit status. *)
Theorem blank_stderr_gives_exit_code_message (c : CompletedProcess) :
  returncode c <> 0 ->
  returncode c <> 124 ->
  forallb isspace (stderr c) = true ->
  json (classify c)
  = [(lit "output", strip (stdout c));
     (lit "error",
      lit "container exited with code " ++ str_of_int (returncode c))].
Proof.
  intros H0 H124 Hb. rewrite (classify_nonzero c H0 H124). cbn [json].
  rewrite (strip_blank _ Hb). reflexivity.
Qed.

(** X13: a successful process that printed nothing, or nothing but
    newlines, gives the empty output: blank lines at the end of the
    output are not returned. *)
Theorem blank_lines_give_empty_output (c : CompletedProcess) (k : nat) :
  returncode c = 0 ->
  stdout c = repeat 10%N k ->
  classify c = {| json := [(lit "output", [])]; status := 200 |}.
Proof.
  intros H0 Hs. rewrite (classify_zero c H0), Hs.
  pose proof (rstrip_newline_of_run [] k ltac:(discriminate)) as H.
  cbn [app] in H. rewrite H. reflexivity.
Qed.

(** ** The [in] test and the paths *)

Lemma startswith_nil (s : str) : startswith s [] = true.
Proof. destruct s; reflexivity. Qed.

Lemma startswith_spec (s t : str) :
  startswith s t = true <-> exists post, s = t ++ post.
Proof.
  revert s. induction t as [|b t IH]; intros s.
  - split; [intros _; exists s; reflexivity | intros _; destruct s; reflexivity].
  - destruct s as [|a s]; simpl.
    + split; [discriminate | intros [post H]; discriminate].
    + rewrite andb_true_iff, N.eqb_eq, IH. split.
      * intros [-> [post ->]]. exists post. reflexivity.
      * intros [post [= -> ->]]. eauto.
Qed.

Lemma contains_spec (s t : str) :
  contains s t = true <-> exists pre post, s = pre ++ t ++ post.
Proof.
  induction s as [|a s IH]; cbn [contains].
  - rewrite orb_false_r, startswith_spec. split.
    + intros [post H]. exists [], post. exact H.
    + intros (pre & post & H). destruct pre as [|x pre]; [eauto|discriminate].
  - rewrite orb_true_iff, startswith_spec, IH. split.
    + intros [[post H]|(pre & post & ->)].
      * exists [], post. exact H.
      * exists (a :: pre), post. reflexivity.
    + intros (pre & post & H). destruct pre as [|x pre].
      * left. exists post. exact H.
      * right. injection H as -> ->. eauto.
Qed.

Lemma endswith_app (a b : str) (c : N) :
  b <> [] -> endswith (a ++ b) [c] = endswith b [c].
Proof.
  intros Hb. unfold endswith. rewrite rev_app_distr.
  destruct (rev b) as [|x l] eqn:E.
  - exfalso. apply Hb. rewrite <- (rev_involutive b), E. reflexivity.
  - simpl. rewrite !startswith_nil. reflexivity.
Qed.

Lemma workspace_name (w : World) :
  exists pre, tempdir_of w = pre ++ lit "safeexec-" ++ uuid4 w.
Proof.
  unfold tempdir_of, path_join.
  change (startswith (lit "safeexec-" ++ uuid4 w) (lit "/")) with false.
  cbv iota.
  destruct (negb (truthy (gettempdir w)) || endswith (gettempdir w) (lit "/")).
  - exists (gettempdir w). reflexivity.
  - exists (gettempdir w ++ lit "/"). rewrite <- app_assoc. reflexivity.
Qed.

(** X14: the reason given to the caller names docker exactly when the
    lower-cased message of the [FileNotFoundError] has "docker" somewhere
    in it, and names timeout otherwise. *)
Theorem missing_tool_named_by_message (lower : str -> str) (msg : str) :
  ((exists pre post, lower msg = pre ++ lit "docker" ++ post) ->
   json (tool_not_found lower msg)
   = [(lit "error", lit "Required tool not found: docker")])
  /\ (~ (exists pre post, lower msg = pre ++ lit "docker" ++ post) ->
      json (tool_not_found lower msg)
      = [(lit "error", lit "Required tool not found: timeout")]).
Proof.
  unfold tool_not_found. cbn [json].
  destruct (contains (lower msg) (lit "docker")) eqn:E.
  - split; [reflexivity|]. intros H. exfalso. apply H.
    apply contains_spec. exact E.
  - split; [|reflexivity]. intros H. apply contains_spec in H.
    rewrite H in E. discriminate.
Qed.

(** X15: two runs on the same temporary directory with different run ids
    have different workspace directories. *)
Theorem distinct_run_ids_distinct_workspaces (w1 w2 : World) :
  gettempdir w1 = gettempdir w2 ->
  uuid4 w1 <> uuid4 w2 ->
  tempdir_of w1 <> tempdir_of w2.
Proof.
  intros Hg Hu Ht. apply Hu. revert Ht.
  unfold tempdir_of, path_join. rewrite Hg.
  change (startswith (lit "safeexec-" ++ uuid4 w1) (lit "/")) with false.
  change (startswith (lit "safeexec-" ++ uuid4 w2) (lit "/")) with false.
  cbv iota.
  destruct (negb (truthy (gettempdir w2)) || endswith (gettempdir w2) (lit "/"));
    intros Ht; repeat apply app_inv_head in Ht; exact Ht.
Qed.

(** X16: when the run id does not end in a slash (a uuid never does),
    the script is written to the workspace directory followed by
    "/script.py", a path inside the directory that is mounted on /app and
    that [rmtree] removes. *)
Theorem script_inside_workspace (w : World) :
  endswith (uuid4 w) (lit "/") = false ->
  script_path_of w = tempdir_of w ++ lit "/script.py"
  /\ under (tempdir_of w) (script_path_of w) = true.
Proof.
  intros Hu.
  destruct (workspace_name w) as [pre Ht].
  assert (Hend : endswith (tempdir_of w) (lit "/") = false).
  { rewrite Ht. change (lit "/") with [47%N].
    rewrite endswith_app by (intros H; discriminate).
    destruct (uuid4 w) as [|x u] eqn:E; [reflexivity|].
    change (lit "safeexec-" ++ x :: u) with (lit "safeexec-" ++ (x :: u)).
    rewrite endswith_app by discriminate. exact Hu. }
  assert (Hne : truthy (tempdir_of w) = true).
  { rewrite Ht. destruct pre; reflexivity. }
  assert (Hs : script_path_of w = tempdir_of w ++ lit "/script.py").
  { unfold script_path_of, path_join.
    change (startswith (lit "script.py") (lit "/")) with false. cbv iota.
    rewrite Hne, Hend. reflexivity. }
  split; [exact Hs|].
  unfold under. rewrite Hs. apply orb_true_iff. right.
  apply startswith_spec. exists (lit "script.py").
  rewrite <- app_assoc. reflexivity.
Qed.

(** ** These theorems at concrete inputs *)

Lemma body_without_get_raises_witness :
  run_code lower_ascii host_ok (PyList [PyInt 1]) (start ∅)
  = (Raised (AttributeError (lit "'list' object has no attribute 'get'")),
     start ∅).
Proof.
  apply (body_without_get_raises lower_ascii host_ok (PyList [PyInt 1]) (start ∅)).
  reflexivity.
Defined.

Lemma missing_code_key_rejected_witness :
  run_code lower_ascii host_ok (PyDict [(lit "lang", PyStr (lit "py"))]) (start ∅)
  = (Returned {| json := [(lit "error", lit "code must be a string")];
                 status := 400 |}, start ∅).
Proof.
  apply (missing_code_key_rejected lower_ascii host_ok
           [(lit "lang", PyStr (lit "py"))] (start ∅)).
  reflexivity.
Defined.

Lemma makedirs_failure_propagates_witness :
  exists s',
    run_code lower_ascii host_without_tmp (body_of hello) (start ∅)
    = (Raised (OSError (lit "[Errno 13] Permission denied")), s')
    /\ trace s' = [Makedirs (tempdir_of host_without_tmp)].
Proof.
  apply (makedirs_failure_propagates lower_ascii host_without_tmp
           [(lit "code", PyStr hello)] hello ∅).
  - reflexivity.
  - vm_compute. discriminate.
  - reflexivity.
Defined.

Lemma write_failure_leaves_directory_witness :
  exists s',
    run_code lower_ascii host_disk_full (body_of hello) (start ∅)
    = (Raised (OSError (lit "[Errno 28] No space left on device")), s')
    /\ trace s' = [Makedirs (tempdir_of host_disk_full);
                   OpenWrite (script_path_of host_disk_full) hello]
    /\ fs s' !! tempdir_of host_disk_full <> None.
Proof.
  apply (write_failure_leaves_directory lower_ascii host_disk_full
           [(lit "code", PyStr hello)] hello ∅).
  - reflexivity.
  - vm_compute. discriminate.
  - reflexivity.
  - reflexivity.
Defined.

Lemma spawn_failure_leaves_workspace_witness :
  exists s',
    run_code lower_ascii host_timeout_not_executable (body_of hello) (start ∅)
    = (Raised (OSError (lit "[Errno 13] Permission denied: 'timeout'")), s')
    /\ trace s'
       = [Makedirs (tempdir_of host_timeout_not_executable);
          OpenWrite (script_path_of host_timeout_not_executable) hello;
          SubprocessRun (exec_cmd (tempdir_of host_timeout_not_executable))]
    /\ fs s' !! tempdir_of host_timeout_not_executable <> None
    /\ fs s' !! script_path_of host_timeout_not_executable = Some (File hello).
Proof.
  apply (spawn_failure_leaves_workspace lower_ascii host_timeout_not_executable
           [(lit "code", PyStr hello)] hello ∅).
  - reflexivity.
  - vm_compute. discriminate.
  - reflexivity.
  - reflexivity.
  - reflexivity.
  - reflexivity.
Defined.


Lemma files_outside_workspace_untouched_witness :
  run_code lower_ascii host_ok (body_of hello) (start host_files)
  = (Returned (classify printed_one),
     {| fs := cleaned host_ok hello host_files; trace := full_trace host_ok hello |})
  /\ under (tempdir_of host_ok) (lit "/etc/hostname") = false
  /\ under (lit "/etc/hostname") (tempdir_of host_ok) = false
  /\ cleaned host_ok hello host_files !! lit "/etc/hostname"
     = host_files !! lit "/etc/hostname".
Proof.
  assert (Hrun :
    run_code lower_ascii host_ok (body_of hello) (start host_files)
    = (Returned (classify printed_one),
       {| fs := cleaned host_ok hello host_files;
          trace := full_trace host_ok hello |}))
    by (vm_compute; reflexivity).
  split; [exact Hrun|]. split; [reflexivity|]. split; [reflexivity|].
  apply (files_outside_workspace_untouched lower_ascii host_ok (body_of hello)
           host_files _ _ (lit "/etc/hostname") Hrun).
  - reflexivity.
  - reflexivity.
  - vm_compute. discriminate.
Defined.

Lemma host_calls_in_order_witness :
  exists code rest,
    full_trace host_disk_full code
    = [Makedirs (tempdir_of host_disk_full);
       OpenWrite (script_path_of host_disk_full) hello] ++ rest.
Proof.
  assert (Hrun :
    run_code lower_ascii host_disk_full (body_of hello) (start ∅)
    = (Raised (OSError (lit "[Errno 28] No space left on device")),
       {| fs := made host_disk_full ∅;
          trace := [Makedirs (tempdir_of host_disk_full);
                    OpenWrite (script_path_of host_disk_full) hello] |}))
    by (vm_compute; reflexivity).
  exact (host_calls_in_order lower_ascii host_disk_full (body_of hello) ∅ _ _ Hrun).
Defined.

Lemma status_tells_outcome_witness :
  run_code lower_ascii host_ok (body_of hello) (start ∅)
  = (Returned (classify printed_one), ran host_ok hello)
  /\ status (classify printed_one) = 200
  /\ exists code completed,
       subprocess_outcome host_ok = Completed completed
       /\ returncode completed = 0
       /\ json (classify printed_one)
          = [(lit "output", rstrip newline (stdout completed))]
       /\ trace (ran host_ok hello) = full_trace host_ok code.
Proof.
  assert (Hrun : run_code lower_ascii host_ok (body_of hello) (start ∅)
                 = (Returned (classify printed_one), ran host_ok hello))
    by (vm_compute; reflexivity).
  split; [exact Hrun|]. split; [reflexivity|].
  destruct (status_tells_outcome lower_ascii host_ok (body_of hello) ∅ _ _ Hrun)
    as (_ & H200 & _).
  apply H200. reflexivity.
Defined.

Lemma error_message_never_empty_witness :
  In (lit "error", lit "container exited with code 3") (json (classify exited_3))
  /\ lit "container exited with code 3" <> [].
Proof.
  assert (Hin : In (lit "error", lit "container exited with code 3")
                  (json (classify exited_3)))
    by (vm_compute; auto).
  split; [exact Hin|].
  exact (error_message_never_empty exited_3 _ Hin).
Defined.

Lemma blank_stderr_gives_exit_code_message_witness :
  forallb isspace (stderr blank_failure) = true
  /\ json (classify blank_failure)
     = [(lit "output", strip (stdout blank_failure));
        (lit "error",
         lit "container exited with code " ++ str_of_int (returncode blank_failure))].
Proof.
  split; [reflexivity|].
  apply (blank_stderr_gives_exit_code_message blank_failure).
  - vm_compute. discriminate.
  - vm_compute. discriminate.
  - reflexivity.
Defined.

Lemma blank_lines_give_empty_output_witness :
  stdout blank_lines = repeat 10%N 3
  /\ classify blank_lines = {| json := [(lit "output", [])]; status := 200 |}.
Proof.
  split; [reflexivity|].
  apply (blank_lines_give_empty_output blank_lines 3); reflexivity.
Defined.

Lemma distinct_run_ids_distinct_workspaces_witness :
  gettempdir host_ok = gettempdir host_exit_3
  /\ tempdir_of host_ok
     <> tempdir_of {| gettempdir := lit "/tmp";
                      uuid4 := lit "7c9e6679-7425-40de-944b-e07fc1f90ae7";
                      makedirs_error := None;
                      open_error := None;
                      subprocess_outcome := Completed printed_one |}.
Proof.
  split; [reflexivity|].
  apply (distinct_run_ids_distinct_workspaces host_ok).
  - reflexivity.
  - vm_compute. discriminate.
Defined.

Lemma script_inside_workspace_witness :
  script_path_of host_ok = tempdir_of host_ok ++ lit "/script.py"
  /\ under (tempdir_of host_ok) (script_path_of host_ok) = true.
Proof.
  apply (script_inside_workspace host_ok). reflexivity.
Defined.

(** ** The paths that go through the sandbox *)

(** X17: when the directory was made and the script written, and
    [subprocess.run] returns (whatever the exit status) or raises
    [FileNotFoundError], the run returns a response, the one of
    [classify] or the "Required tool not found" one, and its host calls
    are makedirs, write, run, rmtree: the directory is removed exactly
    once, after the sandbox was run. *)
Theorem sandbox_paths_remove_workspace_once (lower : str -> str) (w : World)
    (d : list (str * pyval)) (code : str) (files : gmap str node) :
  dict_get d (lit "code") = PyStr code ->
  Z.of_nat (length code) <= 5000 ->
  makedirs_error w = None ->
  open_error w = None ->
  (exists completed, subprocess_outcome w = Completed completed)
  \/ (exists msg, subprocess_outcome w = SpawnRaises (FileNotFoundError msg)) ->
  exists resp s',
    run_code lower w (PyDict d) (start files) = (Returned resp, s')
    /\ trace s' = full_trace w code
    /\ count_occ event_eq_dec (trace s') (Rmtree (tempdir_of w)) = 1%nat
    /\ ((exists completed,
           subprocess_outcome w = Completed completed
           /\ resp = classify completed)
        \/ (exists msg,
              subprocess_outcome w = SpawnRaises (FileNotFoundError msg)
              /\ resp = tool_not_found lower msg)).
Proof.
  intros Hd Hlen Hmk Hop [[c Hc]|[msg Hm]].
  - eexists _, _. split.
    + apply (run_code_completed lower w d code files c Hd Hlen Hmk Hop Hc).
    + cbn [trace]. split; [reflexivity|].
      split; [apply full_trace_rmtree_once|]. left. eauto.
  - eexists _, _. split.
    + apply (run_code_file_not_found lower w d code files msg Hd Hlen Hmk Hop Hm).
    + cbn [trace]. split; [reflexivity|].
      split; [apply full_trace_rmtree_once|]. right. eauto.
Qed.

Lemma sandbox_paths_remove_workspace_once_witness :
  exists resp s',
    run_code lower_ascii host_without_timeout (body_of hello) (start ∅)
    = (Returned resp, s')
    /\ trace s' = full_trace host_without_timeout hello
    /\ count_occ event_eq_dec (trace s')
         (Rmtree (tempdir_of host_without_timeout)) = 1%nat
    /\ ((exists completed,
           subprocess_outcome host_without_timeout = Completed completed
           /\ resp = classify completed)
        \/ (exists msg,
              subprocess_outcome host_without_timeout
              = SpawnRaises (FileNotFoundError msg)
              /\ resp = tool_not_found lower_ascii msg)).
Proof.
  apply (sandbox_paths_remove_workspace_once lower_ascii host_without_timeout
           [(lit "code", PyStr hello)] hello ∅).
  - reflexivity.
  - vm_compute. discriminate.
  - reflexivity.
  - reflexivity.
  - right. exists no_timeout_binary. reflexivity.
Defined.
